(** * stereodemo: parameter plumbing, block-matching adapters, model cache,
      file-pair source and the frame loop.

    A shallow embedding of [stereodemo/methods.py], [stereodemo/raft_stereo.py]
    and [stereodemo/main.py].

    Conventions of the embedding.
    - Python [int] is [Z]; [%] and [//] are [Z.modulo] and [Z.div] (both
      floored, as in Python).
    - Python and NumPy floating-point numbers are modelled by the rationals
      they denote ([Q]); rounding is not modelled.
    - A [dict] with string keys is a [gmap string _].
    - An exception is a value of [PyError]; code that can raise runs in the
      monad [Eff S], which threads the mutable state [S] and keeps the
      mutations made before the exception was raised.
    - Calls into OpenCV and torch are parameters of the sections below: the
      embedding fixes which calls are made, with which arguments and in which
      order, not what the libraries compute. *)

From Stdlib Require Import ZArith QArith Ascii String List Lia Lqa.
From stdpp Require Import base option list gmap strings pretty.

Local Open Scope Z_scope.

(** ** Exceptions and the effect monad *)

Inductive PyError : Type :=
  | KeyError (key : string)
  | IndexError
  | AttributeError (what : string)
  | TypeError
  | ValueError
  | AssertionError
  | FileNotFoundError
  | DownloadError
  | ZeroDivisionError
  | SystemExit (code : Z).

Inductive result (A : Type) : Type :=
  | Ok (a : A)
  | Raise (e : PyError).
Arguments Ok {A} a.
Arguments Raise {A} e.

Definition Eff (S A : Type) : Type := S -> result A * S.

Definition eret {S A} (a : A) : Eff S A := fun s => (Ok a, s).

Definition ebind {S A B} (m : Eff S A) (k : A -> Eff S B) : Eff S B :=
  fun s => match m s with
           | (Ok a, s') => k a s'
           | (Raise e, s') => (Raise e, s')
           end.

Definition eraise {S A} (e : PyError) : Eff S A := fun s => (Raise e, s).
Definition eget {S} : Eff S S := fun s => (Ok s, s).
Definition emodify {S} (f : S -> S) : Eff S unit := fun s => (Ok tt, f s).
Definition elift {S A} (r : result A) : Eff S A := fun s => (r, s).

Declare Scope eff_scope.
Delimit Scope eff_scope with eff.
Notation "x <- m ;; k" := (ebind m (fun x => k))
  (at level 100, m at next level, right associativity) : eff_scope.
Notation "m ;;; k" := (ebind m (fun _ => k))
  (at level 100, right associativity) : eff_scope.

(** ** NumPy arrays

    Only the first two axes of a shape are ever inspected by the code
    ([shape[0]], [shape[1]], [shape[:2]]); the elements are kept row-major. *)

Record ndarray (A : Type) : Type := mk_ndarray {
  height : nat;
  width : nat;
  data : list A
}.
Arguments mk_ndarray {A} _ _ _.
Arguments height {A} _.
Arguments width {A} _.
Arguments data {A} _.

Definition shape2 {A} (a : ndarray A) : nat * nat := (height a, width a).

Definition ndarray_map {A B} (f : A -> B) (a : ndarray A) : ndarray B :=
  mk_ndarray (height a) (width a) (List.map f (data a)).

(** A BGR colour pixel, a grey level, a raw fixed-point disparity. *)
Definition pixel : Type := Z * Z * Z.
Definition image : Type := ndarray pixel.
Definition gray_image : Type := ndarray Z.

(** * methods.py *)

Module Methods.

Record IntParameter : Type := mk_IntParameter {
  description : string;
  value : Z;
  min : Z;
  max : Z;
  to_valid : Z -> Z
}.

(** The dataclass default [to_valid = lambda x: x]. *)
Definition IntParameter_default (d : string) (v lo hi : Z) : IntParameter :=
  mk_IntParameter d v lo hi (fun x => x).

Definition set_value (self : IntParameter) (x : Z) : IntParameter :=
  mk_IntParameter (description self) (to_valid self x) (min self) (max self)
                  (to_valid self).

Record EnumParameter : Type := mk_EnumParameter {
  enum_description : string;
  index : Z;
  values : list string
}.

Definition set_index (self : EnumParameter) (idx : Z) : EnumParameter :=
  mk_EnumParameter (enum_description self) idx (values self).

(** Python list subscript: a negative index counts from the end. *)
Definition py_subscript {A} (l : list A) (i : Z) : result A :=
  let n := Z.of_nat (length l) in
  let j := if 0 <=? i then i else n + i in
  if (0 <=? j) && (j <? n) then
    match l !! Z.to_nat j with
    | Some x => Ok x
    | None => Raise IndexError
    end
  else Raise IndexError.

Definition enum_value (self : EnumParameter) : result string :=
  py_subscript (values self) (index self).

Definition odd_only (x : Z) : Z :=
  if x mod 2 =? 1 then x else x + 1.

Definition multiple_of_16 (x : Z) : Z :=
  Z.max 16 (x / 16 * 16).

Inductive AnyParameter : Type :=
  | PInt (p : IntParameter)
  | PEnum (p : EnumParameter).

Abbreviation ParamDict := (gmap string AnyParameter).

(** [self.parameters[key]] *)
Definition param {S} (ps : ParamDict) (key : string) : Eff S AnyParameter :=
  match ps !! key with
  | Some p => eret p
  | None => eraise (KeyError key)
  end.

(** [self.parameters[key].value] handed to an integer knob of OpenCV.  An
    [EnumParameter] has a [value] property too, but it is a string, which the
    binding refuses. *)
Definition int_value {S} (ps : ParamDict) (key : string) : Eff S Z :=
  (p <- param ps key ;;
   match p with
   | PInt ip => eret (value ip)
   | PEnum _ => eraise TypeError
   end)%eff.

(** [self.parameters[key].index]; an [IntParameter] has no such attribute. *)
Definition enum_index {S} (ps : ParamDict) (key : string) : Eff S Z :=
  (p <- param ps key ;;
   match p with
   | PEnum ep => eret (index ep)
   | PInt _ => eraise (AttributeError "index")
   end)%eff.

(** [self.parameters[key].set_value(x)], what the user interface does when a
    slider moves.  Only [IntParameter] has [set_value]. *)
Definition set_parameter (key : string) (x : Z) (ps : ParamDict)
  : result ParamDict :=
  match ps !! key with
  | None => Raise (KeyError key)
  | Some (PInt ip) => Ok (<[key := PInt (set_value ip x)]> ps)
  | Some (PEnum _) => Raise (AttributeError "set_value")
  end.

(** [dict.update] with a literal: the listed keys are overwritten. *)
Definition dict_update (new : list (string * AnyParameter)) (ps : ParamDict)
  : ParamDict :=
  fold_left (fun m kv => <[kv.1 := kv.2]> m) new ps.


Record StereoMethod : Type := mk_StereoMethod {
  name : string;
  method_description : string;
  parameters : ParamDict
}.

Definition with_parameters (self : StereoMethod) (ps : ParamDict)
  : StereoMethod :=
  mk_StereoMethod (name self) (method_description self) ps.

(** ** The OpenCV matcher objects

    A matcher is known to the embedding by the calls made on it: its factory
    call, then its setters.  [compute] is a parameter that may depend on all
    of them. *)

Inductive Knob : Type :=
  | TextureThreshold | UniquenessRatio | SpeckleWindowSize | SpeckleRange
  | Disp12MaxDiff | PreFilterCap | PreFilterSize | Mode | P1 | P2.

Inductive CvCall : Type :=
  | StereoBM_create (numDisparities blockSize : Z)
  | StereoSGBM_create (numDisparities blockSize : Z)
  | CvSet (k : Knob) (v : Z)
  | CvCompute (left right : gray_image).

Definition call (c : CvCall) : Eff (list CvCall) unit :=
  emodify (fun log => log ++ [c]).

(** ** StereoBMMethod *)

Definition StereoBM_reset_defaults (ps : ParamDict) : ParamDict :=
  dict_update [
    ("Num Disparities", PInt (mk_IntParameter "Number of disparities (pixels)" 64 16 256 multiple_of_16));
    ("Block Size", PInt (mk_IntParameter "Kernel size for block matching (odd)" 9 3 63 odd_only));
    ("TextureThreshold", PInt (IntParameter_default "Minimum SAD to consider the texture sufficient" 10 0 100));
    ("Uniqueness Ratio", PInt (IntParameter_default "How unique the match each for each pixel" 15 0 100));
    ("SpeckleWindowSize", PInt (IntParameter_default "Speckle window size in pixels (filter small objects). 0 to disable." 100 0 1000));
    ("SpeckleRange", PInt (IntParameter_default "Speckle range (max diff within a window)" 32 0 64));
    ("Disp12MaxDiff", PInt (IntParameter_default "Maximum allowable difference in the right-left check" 1 0 64));
    ("PreFilterCap", PInt (IntParameter_default "Max pre-filter output" 31 1 63));
    ("PreFilterSize", PInt (mk_IntParameter "Pre-filter size (odd)" 9 5 255 odd_only))
  ] ps.

Definition StereoBMMethod_init : StereoMethod :=
  let self := mk_StereoMethod "OpenCV BM" "OpenCV Simple Block Matching" ∅ in
  with_parameters self (StereoBM_reset_defaults (parameters self)).

(** ** StereoSGBMMethod *)

Definition StereoSGBM_reset_defaults (ps : ParamDict) : ParamDict :=
  let nchannels := 1 in
  dict_update [
    ("Num Disparities", PInt (IntParameter_default "Number of disparities (pixels)" 64 2 256));
    ("Block Size", PInt (mk_IntParameter "Kernel size for block matching (odd)" 3 3 63 odd_only));
    ("Mode", PEnum (mk_EnumParameter "Set it to StereoSGBM::MODE_HH to run the full-scale two-pass dynamic programming algorithm. It will consume O(W*H*numDisparities) bytes, which is large for 640x480 stereo and huge for HD-size pictures. By default, it is set to false ."
                      0 ["MODE_SGBM"; "MODE_HH"; "MODE_SGBM_3WAY"; "MODE_HH4"]));
    ("P1", PInt (IntParameter_default "Penalty Cost (default=8*NChannels*BlockSize)" (8*nchannels*3*3) 0 2000));
    ("P2", PInt (IntParameter_default "Penalty Cost. Must be > P1 (default=32*NChannels*BlockSize)." (32*nchannels*3*3) 0 2000));
    ("Uniqueness Ratio", PInt (IntParameter_default "How unique the match each for each pixel" 10 0 100));
    ("SpeckleWindowSize", PInt (IntParameter_default "Speckle window size in pixels (filter small objects). 0 to disable." 100 0 1000));
    ("SpeckleRange", PInt (IntParameter_default "Speckle range (max diff within a window)" 32 0 64));
    ("Disp12MaxDiff", PInt (IntParameter_default "Maximum allowable difference in the right-left check" 1 0 64));
    ("PreFilterCap", PInt (IntParameter_default "Max pre-filter output" 63 1 128))
  ] ps.

Definition StereoSGBMMethod_init : StereoMethod :=
  let self := mk_StereoMethod "OpenCV SGBM" "OpenCV Semi-Global Block Matching" ∅ in
  with_parameters self (StereoSGBM_reset_defaults (parameters self)).

Section Matchers.

(** [cv2.cvtColor(img, cv2.COLOR_BGR2GRAY, img)] *)
Variable cvtColor_BGR2GRAY : image -> gray_image.

(** [stereo.compute(gray_left, gray_right)] for a matcher on which the
    calls [config] were made: an array of 16-bit fixed-point disparities. *)
Variable cv_compute : list CvCall -> gray_image -> gray_image -> ndarray Z.

(** [raw / np.float32(16.0)], element by element. *)
Definition div16 (raw : ndarray Z) : ndarray Q :=
  ndarray_map (fun v => inject_Z v / 16)%Q raw.

(** [start] and [stop] are the two readings of [time.time()]. *)
Definition StereoBM_compute_disparity (ps : ParamDict)
    (left_image right_image : image) (start stop : Q)
  : Eff (list CvCall) (ndarray Q * Q) :=
  (block_size <- int_value ps "Block Size" ;;
   let block_size :=
     if block_size mod 2 =? 0 then block_size + 1 else block_size in
   nd <- int_value ps "Num Disparities" ;;
   call (StereoBM_create nd block_size) ;;;
   v <- int_value ps "TextureThreshold" ;; call (CvSet TextureThreshold v) ;;;
   v <- int_value ps "Uniqueness Ratio" ;; call (CvSet UniquenessRatio v) ;;;
   v <- int_value ps "SpeckleWindowSize" ;; call (CvSet SpeckleWindowSize v) ;;;
   v <- int_value ps "SpeckleRange" ;; call (CvSet SpeckleRange v) ;;;
   v <- int_value ps "Disp12MaxDiff" ;; call (CvSet Disp12MaxDiff v) ;;;
   v <- int_value ps "PreFilterCap" ;; call (CvSet PreFilterCap v) ;;;
   v <- int_value ps "PreFilterSize" ;; call (CvSet PreFilterSize v) ;;;
   let gray_left := cvtColor_BGR2GRAY left_image in
   let gray_right := cvtColor_BGR2GRAY right_image in
   config <- eget ;;
   call (CvCompute gray_left gray_right) ;;;
   let disparity := div16 (cv_compute config gray_left gray_right) in
   eret (disparity, stop - start)%Q)%eff.

Definition StereoSGBM_compute_disparity (ps : ParamDict)
    (left_image right_image : image) (start stop : Q)
  : Eff (list CvCall) (ndarray Q * Q) :=
  (nd <- int_value ps "Num Disparities" ;;
   bs <- int_value ps "Block Size" ;;
   call (StereoSGBM_create nd bs) ;;;
   v <- enum_index ps "Mode" ;; call (CvSet Mode v) ;;;
   v <- int_value ps "P1" ;; call (CvSet P1 v) ;;;
   v <- int_value ps "P2" ;; call (CvSet P2 v) ;;;
   v <- int_value ps "PreFilterCap" ;; call (CvSet PreFilterCap v) ;;;
   v <- int_value ps "Uniqueness Ratio" ;; call (CvSet UniquenessRatio v) ;;;
   v <- int_value ps "SpeckleWindowSize" ;; call (CvSet SpeckleWindowSize v) ;;;
   v <- int_value ps "SpeckleRange" ;; call (CvSet SpeckleRange v) ;;;
   v <- int_value ps "Disp12MaxDiff" ;; call (CvSet Disp12MaxDiff v) ;;;
   let gray_left := cvtColor_BGR2GRAY left_image in
   let gray_right := cvtColor_BGR2GRAY right_image in
   config <- eget ;;
   call (CvCompute gray_left gray_right) ;;;
   let disparity := div16 (cv_compute config gray_left gray_right) in
   eret (disparity, stop - start)%Q)%eff.

End Matchers.

End Methods.

(** * raft_stereo.py *)

Module Raft.

Import Methods.

(** The names of the twenty serialized networks of the release; [urls] maps
  each to its download address. *)
Definition release_url (file_name : string) : string :=
"https://github.com/nburrus/stereodemo/releases/download/v0.1-raft-stereo/models/" +:+ file_name.

Definition url_names : list string := [
"raft-stereo-eth3d-cpu-128x160.scripted.pt";
"raft-stereo-eth3d-cpu-256x320.scripted.pt";
"raft-stereo-eth3d-cpu-480x640.scripted.pt";
"raft-stereo-eth3d-cpu-736x1280.scripted.pt";
"raft-stereo-eth3d-cuda-128x160.scripted.pt";
"raft-stereo-eth3d-cuda-256x320.scripted.pt";
"raft-stereo-eth3d-cuda-480x640.scripted.pt";
"raft-stereo-eth3d-cuda-736x1280.scripted.pt";
"raft-stereo-fast-cpu-128x160.scripted.pt";
"raft-stereo-fast-cpu-256x320.scripted.pt";
"raft-stereo-fast-cpu-480x640.scripted.pt";
"raft-stereo-fast-cpu-736x1280.scripted.pt";
"raft-stereo-fast-cuda-128x160.scripted.pt";
"raft-stereo-fast-cuda-256x320.scripted.pt";
"raft-stereo-fast-cuda-480x640.scripted.pt";
"raft-stereo-fast-cuda-736x1280.scripted.pt";
"raft-stereo-middlebury-cuda-128x160.scripted.pt";
"raft-stereo-middlebury-cuda-256x320.scripted.pt";
"raft-stereo-middlebury-cuda-480x640.scripted.pt";
"raft-stereo-middlebury-cuda-736x1280.scripted.pt"
].

Definition urls : gmap string string :=
list_to_map ((fun n => (n, release_url n)) <$> url_names).

Definition reset_defaults (ps : ParamDict) : ParamDict :=
dict_update [
  ("Shape", PEnum (mk_EnumParameter "Processed image size" 2
                     ["160x128"; "320x256"; "640x480"; "1280x736"]));
  ("Model", PEnum (mk_EnumParameter "Pre-trained Model" 0
                     ["fast-cpu"; "middlebury-cpu"; "eth3d-cpu";
                      "fast-cuda"; "middlebury-cuda"; "eth3d-cuda"]))
] ps.

(** ** String helpers: [str.split], [int], [str], [in] *)

Fixpoint split_on (sep : ascii) (s : string) : list string :=
match s with
| EmptyString => [EmptyString]
| String c s' =>
    if Ascii.eqb c sep then EmptyString :: split_on sep s'
    else match split_on sep s' with
         | h :: t => String c h :: t
         | [] => [String c EmptyString]
         end
end.

Definition digit_value (c : ascii) : option Z :=
let n := Z.of_N (N_of_ascii c) in
if (48 <=? n) && (n <=? 57) then Some (n - 48) else None.

Fixpoint parse_digits (acc : Z) (s : string) : option Z :=
match s with
| EmptyString => Some acc
| String c s' =>
    match digit_value c with
    | Some d => parse_digits (10 * acc + d) s'
    | None => None
    end
end.

(** [int(s)] for a string of decimal digits, the only form the shapes of
  [reset_defaults] take; anything else is reported as [ValueError]. *)
Definition py_int (s : string) : result Z :=
match s with
| EmptyString => Raise ValueError
| _ => match parse_digits 0 s with
       | Some z => Ok z
       | None => Raise ValueError
       end
end.

(** [needle in hay] *)
Fixpoint contains (needle hay : string) : bool :=
String.prefix needle hay ||
match hay with
| EmptyString => false
| String _ hay' => contains needle hay'
end.

(** [self.parameters[key].value] of an [EnumParameter]: [values[index]]. *)
Definition str_value {S} (ps : ParamDict) (key : string) : Eff S string :=
(p <- param ps key ;;
 match p with
 | PEnum ep => elift (enum_value ep)
 | PInt _ => eraise (AttributeError "split")
 end)%eff.

(** ** The method object and its surroundings *)

Inductive Device : Type := cuda | cpu.

Inductive Event : Type :=
| EvMkdir
| EvDownload (url file_name : string)
| EvJitLoad (file_name : string)
| EvForward (d : Device)
| EvClearGpu.

(** Modelled from the spec: [InputPair] is imported from [methods] but is not
  among the sources; only the two images are read here. *)
Record InputPair : Type := mk_InputPair {
left_image : image;
right_image : image
}.

(** Modelled from the spec: [StereoOutput] is imported from [methods] but is
  not among the sources; its fields follow the positional order of the
  constructor call in [_compute_disparity], the first being the disparity
  map. *)
Record StereoOutput : Type := mk_StereoOutput {
disparity_pixels : ndarray Q;
color_image_bgr : image;
computation_time : Q
}.

Section RaftStereo.

(** The bytes of a serialized network, a loaded network, an input tensor. *)
Context {Blob Net Tensor : Type}.

Variable torch_jit_load : Blob -> result Net.
Variable cvtColor_BGR2RGB : image -> image.
(** [cv2.resize(src, dsize)] with [dsize = (width, height)]. *)
Variable cv_resize_image : image -> Z * Z -> image.
Variable cv_resize : ndarray Q -> nat * nat -> ndarray Q.
(** [torch.from_numpy(img).permute(2, 0, 1).unsqueeze(0).float()] *)
Variable to_tensor : image -> Tensor.
(** [net(left, right)[1][0]] brought back to a two-axis NumPy array. *)
Variable forward : Net -> Device -> Tensor -> Tensor -> ndarray Q.

Record State : Type := mk_State {
  parameters : ParamDict;
  net : option Net;
  _loaded_model_path : option string;
  target_size : option (Z * Z);
  (** whether the [models] directory exists, and the files in it *)
  models_dir : bool;
  models : gmap string Blob;
  (** what each address serves *)
  remote : gmap string Blob;
  events : list Event
}.

Definition emit (e : Event) : Eff State unit :=
  emodify (fun s => mk_State (parameters s) (net s) (_loaded_model_path s)
                      (target_size s) (models_dir s) (models s) (remote s)
                      (events s ++ [e])).

Definition set_models (m : gmap string Blob) : Eff State unit :=
  emodify (fun s => mk_State (parameters s) (net s) (_loaded_model_path s)
                      (target_size s) (models_dir s) m (remote s) (events s)).

Definition set_models_dir (b : bool) : Eff State unit :=
  emodify (fun s => mk_State (parameters s) (net s) (_loaded_model_path s)
                      (target_size s) b (models s) (remote s) (events s)).

Definition set_target_size (ts : Z * Z) : Eff State unit :=
  emodify (fun s => mk_State (parameters s) (net s) (_loaded_model_path s)
                      (Some ts) (models_dir s) (models s) (remote s) (events s)).

Definition set_loaded_model_path (p : string) : Eff State unit :=
  emodify (fun s => mk_State (parameters s) (net s) (Some p)
                      (target_size s) (models_dir s) (models s) (remote s) (events s)).

Definition set_net (n : Net) : Eff State unit :=
  emodify (fun s => mk_State (parameters s) (Some n) (_loaded_model_path s)
                      (target_size s) (models_dir s) (models s) (remote s) (events s)).

(** Modelled from the spec: [utils.download_model] is not among the sources.
    It fetches the file served at [url] and stores it under [file_name] in
    the models directory; an address that serves nothing is an error. *)
Definition download_model (url file_name : string) : Eff State unit :=
  (emit (EvDownload url file_name) ;;;
   s <- eget ;;
   match remote s !! url with
   | Some blob => set_models (<[file_name := blob]> (models s))
   | None => eraise DownloadError
   end)%eff.

Definition _load_model (file_name : string) : Eff State unit :=
  (s <- eget ;;
   (if bool_decide (is_Some (models s !! file_name)) then eret tt
    else match urls !! file_name with
         | Some url => download_model url file_name
         | None => eraise (KeyError file_name)
         end) ;;;
   s <- eget ;;
   match models s !! file_name with
   | None => eraise AssertionError
   | Some blob =>
       set_loaded_model_path file_name ;;;
       emit (EvJitLoad file_name) ;;;
       n <- elift (torch_jit_load blob) ;;
       set_net n
   end)%eff.

Definition _preprocess_input (ts : Z * Z) (img : image) : Tensor :=
  let img := cvtColor_BGR2RGB img in
  let img := cv_resize_image img ts in
  to_tensor img.

Definition _process_output (outputs : ndarray Q) : ndarray Q :=
  ndarray_map (fun v => v * - (1))%Q outputs.

Definition model_file_name (variant : string) (rows cols : Z) : string :=
  "raft-stereo-" +:+ variant +:+ "-" +:+ pretty rows +:+ "x" +:+ pretty cols
    +:+ ".scripted.pt".

Definition _compute_disparity (input : InputPair) (start stop : Q)
  : Eff State StereoOutput :=
  (s <- eget ;;
   (if models_dir s then eret tt
    else (emit EvMkdir ;;; set_models_dir true)) ;;;
   shape <- str_value (parameters s) "Shape" ;;
   cr <- match split_on "x" shape with
         | [c; r] => eret (c, r)
         | _ => eraise ValueError
         end ;;
   cols <- elift (py_int cr.1) ;;
   rows <- elift (py_int cr.2) ;;
   set_target_size (cols, rows) ;;;
   variant <- str_value (parameters s) "Model" ;;
   _load_model (model_file_name variant rows cols) ;;;
   let left_tensor := _preprocess_input (cols, rows) (left_image input) in
   let right_tensor := _preprocess_input (cols, rows) (right_image input) in
   let device := if contains "cuda" variant then cuda else cpu in
   s <- eget ;;
   n <- match net s with
        | Some n => eret n
        | None => eraise (AttributeError "to")
        end ;;
   emit (EvForward device) ;;;
   let outputs := forward n device left_tensor right_tensor in
   let elapsed_time := (stop - start)%Q in
   let disparity_map := _process_output outputs in
   disparity_map <-
     (if bool_decide (shape2 disparity_map <> shape2 (left_image input)) then
        let disparity_map :=
          cv_resize disparity_map
            (width (left_image input), height (left_image input)) in
        if cols =? 0 then eraise ZeroDivisionError
        else
          let x_scale :=
            (inject_Z (Z.of_nat (width (left_image input))) / inject_Z cols)%Q in
          eret (ndarray_map (fun v => v * x_scale)%Q disparity_map)
      else eret disparity_map) ;;
   eret (mk_StereoOutput disparity_map (left_image input) elapsed_time))%eff.

Definition compute_disparity (input : InputPair) (start stop : Q)
  : Eff State StereoOutput :=
  (stereo_output <- _compute_disparity input start stop ;;
   emit EvClearGpu ;;;
   eret stereo_output)%eff.

End RaftStereo.

End Raft.

(** * main.py *)

Module Main.

(** A [pathlib.Path], by its [parts]. *)
Abbreviation Path := (list string).

Definition parent (p : Path) : Path :=
match p with
| ["/"] => p
| _ => removelast p
end.

(** [p / name] *)
Definition joinpath (p : Path) (name : string) : Path := p ++ [name].

Fixpoint join_parts (ps : list string) : string :=
match ps with
| [] => ""
| [x] => x
| x :: rest => x +:+ "/" +:+ join_parts rest
end.

(** [str(p)] *)
Definition path_str (p : Path) : string :=
match p with
| [] => "."
| "/" :: rest => "/" +:+ join_parts rest
| _ => join_parts p
end.

Inductive File : Type :=
| ImageFile (img : image)
| TextFile (content : string).

Abbreviation FileSystem := (gmap (list string) File).

(** [cv2.imread(str(path), cv2.IMREAD_COLOR)]: [None] when the file is
  missing or is not an image. *)
Definition load_image (fs : FileSystem) (path : Path) : option image :=
match fs !! path with
| Some (ImageFile img) => Some img
| _ => None
end.

Definition path_exists (fs : FileSystem) (path : Path) : bool :=
bool_decide (is_Some (fs !! path)).

(** [open(path, 'r').read()] *)
Definition read_text (fs : FileSystem) (path : Path) : result string :=
match fs !! path with
| Some (TextFile s) => Ok s
| Some (ImageFile _) => Raise ValueError
| None => Raise FileNotFoundError
end.

(** Modelled from the spec: [visualizer.Calibration] is not among the sources.
  A calibration record holds the image size, the intrinsic focal lengths
  and principal point, and the stereo baseline; the fields are in the
  positional order of the constructor call in [get_next_pair]. *)
Record Calibration : Type := mk_Calibration {
calib_width : nat;
calib_height : nat;
fx : Q;
fy : Q;
cx : Q;
cy : Q;
baseline_meters : Q
}.

(** Modelled from the spec: [visualizer.InputPair] is not among the sources;
  the fields are in the positional order of the constructor call in
  [get_next_pair].  An image that could not be read is [None]. *)
Record InputPair : Type := mk_InputPair {
left_image : option image;
right_image : option image;
calibration : Calibration;
status : string
}.

Record FileListSource : Type := mk_FileListSource {
left_images_path : list Path;
right_images_path : list Path;
index : Z;
user_provided_calibration_path : option Path
}.

Definition FileListSource_init (file_list : list Path)
  (calibration : option Path) : result FileListSource :=
if Z.of_nat (length file_list) mod 2 =? 0 then
  let N := Z.to_nat (Z.of_nat (length file_list) / 2) in
  Ok (mk_FileListSource (take N file_list) (drop N file_list) 0 calibration)
else Raise AssertionError.

(** The state [get_next_pair] acts on: the source object and what has been
  printed so far. *)
Record SourceState : Type := mk_SourceState {
self : FileListSource;
stdout : list string
}.

Definition set_index (i : Z) : Eff SourceState unit :=
emodify (fun s =>
  mk_SourceState
    (mk_FileListSource (left_images_path (self s)) (right_images_path (self s))
                       i (user_provided_calibration_path (self s)))
    (stdout s)).

Definition print (line : string) : Eff SourceState unit :=
emodify (fun s => mk_SourceState (self s) (stdout s ++ [line])).

Definition missing_calibration_warning (calibration_path : Path) : string :=
"Warning: no calibration file found " +:+ path_str calibration_path
  +:+ ". Using default calibration, the point cloud won't be accurate.".

Definition default_calibration (left_image : image) : Calibration :=
mk_Calibration (width left_image)
               (height left_image)
               (inject_Z (Z.of_nat (height left_image)) * (8 # 10))%Q
               (inject_Z (Z.of_nat (height left_image)) * (8 # 10))%Q
               (inject_Z (Z.of_nat (width left_image)) / 2)%Q
               (inject_Z (Z.of_nat (height left_image)) / 2)%Q
               (75 # 1000)%Q.

Section FileList.

(** [visualizer.Calibration.from_json], not among the sources. *)
Variable Calibration_from_json : string -> result Calibration.

Variable fs : FileSystem.

Definition get_next_pair : Eff SourceState InputPair :=
  (s <- eget ;;
   (if Z.of_nat (length (left_images_path (self s))) <=? index (self s)
    then set_index 0 else eret tt) ;;;
   s <- eget ;;
   left_image_path <-
     elift (Methods.py_subscript (left_images_path (self s)) (index (self s))) ;;
   let left_image := load_image fs left_image_path in
   calibration_path <-
     match user_provided_calibration_path (self s) with
     | None =>
         let calibration_path :=
           joinpath (parent left_image_path) "stereodemo_calibration.json" in
         if negb (path_exists fs calibration_path) then
           print (missing_calibration_warning calibration_path) ;;;
           eret None
         else eret (Some calibration_path)
     | Some p => eret (Some p)
     end ;;
   calib <-
     match calibration_path with
     | Some p =>
         text <- elift (read_text fs p) ;;
         elift (Calibration_from_json text)
     | None =>
         match left_image with
         | Some img => eret (default_calibration img)
         | None => eraise (AttributeError "shape")
         end
     end ;;
   right_image_path <-
     elift (Methods.py_subscript (right_images_path (self s)) (index (self s))) ;;
   set_index (index (self s) + 1) ;;;
   let status := path_str left_image_path +:+ " / " +:+ path_str right_image_path in
   eret (mk_InputPair (load_image fs left_image_path)
                      (load_image fs right_image_path) calib status))%eff.

End FileList.

(** ** The command line and the frame loop *)

Record Args : Type := mk_Args {
oak : bool;
images : option (list Path);
args_calibration : option Path
}.

Inductive Source : Type :=
| FromFiles (src : FileListSource)
| FromOakd.

Inductive Event : Type :=
| EvPrint (line : string)
| EvVisualizer (method_names : list string) (source : Source)
| EvUpdateOnce (continue : bool)
| EvWaitKey (delay : Z)
| EvSleep (seconds : Q).

Definition emit (e : Event) : Eff (list Event) unit :=
emodify (fun log => log ++ [e]).

(** What one pass of the loop observes: the reading of [time.time()] at its
  start, what [viz.update_once()] returned, and, when the loop goes on, the
  second reading of [time.time()]. *)
Inductive Pass : Type :=
| Continue (start_time end_time : Q)
| Break (start_time : Q).

Definition frame_period : Q := 1 / 30.

(** The [while True] loop, run for as long as observations are supplied. *)
Fixpoint frame_loop (passes : list Pass) : Eff (list Event) unit :=
match passes with
| [] => eret tt
| Break start_time :: _ => emit (EvUpdateOnce false)
| Continue start_time end_time :: rest =>
    (emit (EvUpdateOnce true) ;;;
     emit (EvWaitKey 1) ;;;
     let elapsed := (end_time - start_time)%Q in
     let time_to_sleep := (frame_period - elapsed)%Q in
     (if Qlt_le_dec 0 time_to_sleep then emit (EvSleep time_to_sleep)
      else eret tt) ;;;
     frame_loop rest)%eff
end.

Section MainProgram.

(** [CREStereo()] and [StereoFromOakInputSource()]: their classes are not
    among the sources; only their names are used by [main]. *)
Variable CREStereo_name : string.
Variable StereoFromOakInputSource_name : string.

(** The keys of [{ method.name: method for method in method_list }], in
    insertion order. *)
Fixpoint dict_keys (names : list string) : list string :=
  match names with
  | [] => []
  | n :: rest => n :: filter (fun m => m <> n) (dict_keys rest)
  end.

Definition main (args : Args) (passes : list Pass) : Eff (list Event) unit :=
  (let method_list :=
     [Methods.name Methods.StereoBMMethod_init;
      Methods.name Methods.StereoSGBMMethod_init;
      CREStereo_name] in
   sm <-
     match images args with
     | Some file_list =>
         src <- elift (FileListSource_init file_list (args_calibration args)) ;;
         eret (FromFiles src, method_list)
     | None =>
         if oak args then
           eret (FromOakd, [StereoFromOakInputSource_name] ++ method_list)
         else
           emit (EvPrint "You need to specify --oak or --images") ;;;
           eraise (SystemExit 1)
     end ;;
   emit (EvVisualizer (dict_keys sm.2) sm.1) ;;;
   frame_loop passes)%eff.

End MainProgram.

End Main.

(** * Properties of the parameter plumbing and of the matcher adapters *)

Module MethodsSpec.

Import Methods.

(** The integer stored under [key], when [key] holds an [IntParameter]. *)
Definition stored (ps : ParamDict) (key : string) : option Z :=
match ps !! key with
| Some (PInt p) => Some (value p)
| _ => None
end.

(** The dictionaries a [StereoBMMethod] can hold when its parameters are only
  ever changed through [reset_defaults] and [IntParameter.set_value]. *)
Inductive bm_reachable : ParamDict -> Prop :=
| bm_reach_init :
    bm_reachable (parameters StereoBMMethod_init)
| bm_reach_reset ps :
    bm_reachable ps -> bm_reachable (StereoBM_reset_defaults ps)
| bm_reach_set ps key x ps' :
    bm_reachable ps -> set_parameter key x ps = Ok ps' -> bm_reachable ps'.

Definition bm_invariant (ps : ParamDict) : Prop :=
(exists v, stored ps "Block Size" = Some v /\ Z.odd v = true) /\
(exists v, stored ps "PreFilterSize" = Some v /\ Z.odd v = true) /\
(exists v, stored ps "Num Disparities" = Some v /\ (16 | v) /\ 16 <= v).

(** [bm_invariant] together with the validators that maintain it. *)
Definition bm_validated (ps : ParamDict) : Prop :=
(exists p, ps !! "Block Size" = Some (PInt p)
           /\ to_valid p = odd_only /\ Z.odd (value p) = true) /\
(exists p, ps !! "PreFilterSize" = Some (PInt p)
           /\ to_valid p = odd_only /\ Z.odd (value p) = true) /\
(exists p, ps !! "Num Disparities" = Some (PInt p)
           /\ to_valid p = multiple_of_16
           /\ (16 | value p) /\ 16 <= value p).

(** Every key of [keys] holds an [IntParameter]. *)
Definition int_keys (keys : list string) (ps : ParamDict) : Prop :=
Forall (fun k => exists p, ps !! k = Some (PInt p)) keys.

Definition bm_keys : list string :=
["Block Size"; "Num Disparities"; "TextureThreshold"; "Uniqueness Ratio";
 "SpeckleWindowSize"; "SpeckleRange"; "Disp12MaxDiff"; "PreFilterCap";
 "PreFilterSize"].

Definition sgbm_int_keys : list string :=
["Num Disparities"; "Block Size"; "P1"; "P2"; "PreFilterCap";
 "Uniqueness Ratio"; "SpeckleWindowSize"; "SpeckleRange"; "Disp12MaxDiff"].

Definition sgbm_ready (ps : ParamDict) : Prop :=
int_keys sgbm_int_keys ps /\ exists e, ps !! "Mode" = Some (PEnum e).

(** A value that [np.float32] holds without rounding: [m * 2^e] with a
  24-bit significand and an exponent in range. *)
Definition binary32_exact (q : Q) : Prop :=
exists m e : Z,
  Z.abs m < 2 ^ 24 /\ -149 <= e <= 104 /\ (q == inject_Z m * 2 ^ e)%Q.

(** The dictionary of a [StereoBMMethod] whose block size was assigned
  directly, without [set_value]. *)
Definition bm_with_block_size (bs : Z) : ParamDict :=
<["Block Size" :=
    PInt (mk_IntParameter "Kernel size for block matching (odd)" bs 3 63 odd_only)]>
  (parameters StereoBMMethod_init).

(** The dictionary after the user interface asks for a block size of 12. *)
Definition bm_after_block_size_12 : ParamDict :=
  match set_parameter "Block Size" 12 (parameters StereoBMMethod_init) with
  | Ok ps => ps
  | Raise _ => parameters StereoBMMethod_init
  end.

(** Instances of the OpenCV parameters, to run the adapters on: the mean of
    the three channels as grey level, and a matcher that answers sixteen
    times the left grey level. *)
Definition mean_gray (img : image) : gray_image :=
  ndarray_map (fun px => (px.1.1 + px.1.2 + px.2) / 3) img.

Definition left_times_16 (config : list CvCall) (left right : gray_image)
  : ndarray Z :=
  ndarray_map (fun v => 16 * v) left.

Definition two_pixels : image := mk_ndarray 1 2 [(10, 20, 30); (40, 50, 60)].

End MethodsSpec.

(** * Properties of the RAFT-Stereo adapter *)

Module RaftSpec.

Import Methods Raft.

(** The string an [EnumParameter] stored under [key] currently selects. *)
Definition selected (ps : ParamDict) (key : string) : result string :=
  match ps !! key with
  | Some (PEnum e) => enum_value e
  | Some (PInt _) => Raise (AttributeError "split")
  | None => Raise (KeyError key)
  end.

(** [self.parameters[key].set_index(idx)], what the user interface does when
    another entry of a list is picked. *)
Definition set_parameter_index (key : string) (idx : Z) (ps : ParamDict)
  : ParamDict :=
  match ps !! key with
  | Some (PEnum e) => <[key := PEnum (set_index e idx)]> ps
  | _ => ps
  end.

(** The bytes [_load_model] ends up loading for [file_name]: the cached file,
    or else what the address listed in [urls] serves. *)
Definition available {Blob Net} (s : @State Blob Net) (file_name : string)
  : option Blob :=
  match models s !! file_name with
  | Some blob => Some blob
  | None => match urls !! file_name with
            | Some url => remote s !! url
            | None => None
            end
  end.

(** Nearest-neighbour sampling, an instance of the [cv2.resize] parameter. *)
Definition nearest_resize (src : ndarray Q) (dsize : nat * nat) : ndarray Q :=
  mk_ndarray dsize.2 dsize.1
    (flat_map (fun y =>
       List.map (fun x =>
         nth ((y * height src / dsize.2) * width src + x * width src / dsize.1)%nat
             (data src) 0%Q)
         (seq 0 dsize.1))
       (seq 0 dsize.2)).

(** Instances of the torch parameters: a network file is one byte, loading
    it never fails, and the network answers a single pixel of disparity
    [-3]. *)
Definition load_any (blob : Z) : result Z := Ok blob.

Definition one_pixel_net (n : Z) (d : Device) (left right : image) : ndarray Q :=
  mk_ndarray 1 1 [(-3)%Q].

Definition keep_size (img : image) (dsize : Z * Z) : image := img.

Definition bgr_to_rgb (img : image) : image :=
  ndarray_map (fun px => (px.2, px.1.2, px.1.1)) img.

Definition as_tensor (img : image) : image := img.

(** The release serves the default network, and nothing is cached. *)
Definition serves_default : gmap string Z :=
  {[ release_url "raft-stereo-fast-cpu-480x640.scripted.pt" := 7 ]}.

Definition gray_2x3 : image := mk_ndarray 2 3 (repeat (128, 128, 128) 6).

(** A fresh [RaftStereo] whose models directory exists, with [cached] in it
    and [served] behind the addresses. *)
Definition fresh (ps : ParamDict) (cached served : gmap string Z)
  : @State Z Z :=
  mk_State ps None None None true cached served [].

End RaftSpec.

(** * Properties of the file-pair source and of the frame loop *)

Module MainSpec.

Import Main.

(** The position [get_next_pair] reads: the index, wrapped to 0 once it has
    reached the number of pairs. *)
Definition wrapped_index (s : SourceState) : Z :=
  if Z.of_nat (length (left_images_path (self s))) <=? index (self s)
  then 0 else index (self s).

(** Where [get_next_pair] looks for a calibration next to [left_image_path]. *)
Definition sibling_calibration (left_image_path : Path) : Path :=
  joinpath (parent left_image_path) "stereodemo_calibration.json".




(** A parser that accepts nothing; one pair of paths; a directory that holds
    both images and no calibration. *)
Definition reject_json (text : string) : result Calibration := Raise ValueError.

Definition one_pair : list Path := [["left.png"]; ["right.png"]].

Definition gray_2x3 : image := mk_ndarray 2 3 (repeat (128, 128, 128) 6).

Definition both_images : FileSystem :=
  <[["left.png"] := ImageFile gray_2x3]>
    (<[["right.png"] := ImageFile gray_2x3]> ∅).

(** The source [main] builds from [one_pair] when no calibration is given. *)
Definition one_pair_source : SourceState :=
  mk_SourceState (mk_FileListSource [["left.png"]] [["right.png"]] 0 None) [].


End MainSpec.

(** * Theorems: methods.py *)

Section ValidatorProofs.
Import Methods MethodsSpec.

Lemma odd_only_odd x : Z.odd (odd_only x) = true.
Proof.
  unfold odd_only. destruct (Z.eqb_spec (x mod 2) 1) as [H|H].
  - rewrite Zodd_mod. now apply Z.eqb_eq.
  - rewrite Z.odd_add, Zodd_mod. simpl.
    assert (H0 : x mod 2 = 0) by (pose proof (Z.mod_pos_bound x 2); lia).
    rewrite H0. reflexivity.
Qed.

Lemma odd_only_even x : odd_only x = if Z.even x then x + 1 else x.
Proof.
  unfold odd_only. rewrite Zeven_mod.
  pose proof (Z.mod_pos_bound x 2 eq_refl).
  destruct (Z.eqb_spec (x mod 2) 1), (Z.eqb_spec (x mod 2) 0); lia.
Qed.

Lemma multiple_of_16_spec x :
  (16 | multiple_of_16 x) /\ 16 <= multiple_of_16 x
  /\ multiple_of_16 x = Z.max 16 (16 * (x / 16)).
Proof.
  unfold multiple_of_16. repeat split; [|lia|f_equal; lia].
  destruct (Z.max_spec 16 (x / 16 * 16)) as [[_ ->]|[_ ->]].
  - exists (x / 16). reflexivity.
  - exists 1. reflexivity.
Qed.

Lemma bm_validated_invariant ps : bm_validated ps -> bm_invariant ps.
Proof.
  intros ((p1 & H1 & _ & O1) & (p2 & H2 & _ & O2) & (p3 & H3 & _ & D3)).
  unfold bm_invariant, stored. rewrite H1, H2, H3. eauto 10.
Qed.

Lemma bm_defaults_validated ps : bm_validated (StereoBM_reset_defaults ps).
Proof.
  unfold bm_validated, StereoBM_reset_defaults, dict_update. simpl.
  repeat split.
  - eexists. split; [by simplify_map_eq|]. split; reflexivity.
  - eexists. split; [by simplify_map_eq|]. split; reflexivity.
  - eexists. split; [by simplify_map_eq|]. simpl. repeat split; [|lia].
    exists 4. reflexivity.
Qed.

(** A validated key stays validated under [set_value] on any key. *)
Lemma set_parameter_keeps_key (ps : ParamDict) (key : string) x ip (k0 : string)
    f (P : Z -> Prop) :
  ps !! key = Some (PInt ip) ->
  (forall y, P (f y)) ->
  (exists p, ps !! k0 = Some (PInt p) /\ to_valid p = f /\ P (value p)) ->
  exists p, <[key := PInt (set_value ip x)]> ps !! k0 = Some (PInt p)
            /\ to_valid p = f /\ P (value p).
Proof.
  intros Hk Hf (p & Hp & Hv & Hval).
  destruct (decide (key = k0)) as [->|Hne].
  - rewrite Hk in Hp. inversion Hp; subst ip. eexists.
    rewrite lookup_insert_eq. split; [reflexivity|]. simpl.
    split; [assumption|]. rewrite Hv. apply Hf.
  - exists p. rewrite lookup_insert_ne by done. auto.
Qed.

Lemma set_parameter_validated ps key x ps' :
  bm_validated ps -> set_parameter key x ps = Ok ps' -> bm_validated ps'.
Proof.
  intros (B & P & N) Hset. unfold set_parameter in Hset.
  destruct (ps !! key) as [[ip|ep]|] eqn:Hk; inversion Hset; subst ps'; clear Hset.
  unfold bm_validated. split; [|split].
  - eapply (set_parameter_keeps_key _ _ _ _ _ _ (fun v => Z.odd v = true));
      [exact Hk | exact odd_only_odd | exact B].
  - eapply (set_parameter_keeps_key _ _ _ _ _ _ (fun v => Z.odd v = true));
      [exact Hk | exact odd_only_odd | exact P].
  - eapply (set_parameter_keeps_key _ _ _ _ _ _ (fun v => (16 | v) /\ 16 <= v));
      [exact Hk | | exact N].
    intros y. pose proof (multiple_of_16_spec y). tauto.
Qed.

Lemma bm_reachable_validated ps : bm_reachable ps -> bm_validated ps.
Proof.
  induction 1.
  - apply (bm_defaults_validated ∅).
  - apply bm_defaults_validated.
  - eapply set_parameter_validated; eassumption.
Qed.

(** C8.  Whatever integer [x] goes through [IntParameter.set_value] on a
    [StereoBMMethod] whose parameters were only ever changed through
    [reset_defaults] and [set_value], the dictionary keeps its validity
    invariant: 'Block Size' and 'PreFilterSize' are odd, 'Num Disparities' is
    a multiple of 16 and at least 16.  The value stored for the first two is
    [x + 1] when [x] is even and [x] otherwise; for the third it is [x]
    floored to a multiple of 16 and clamped below by 16. *)
Theorem set_value_keeps_bm_valid ps key x ps' :
  bm_reachable ps ->
  set_parameter key x ps = Ok ps' ->
  bm_invariant ps'
  /\ (key = "Block Size" \/ key = "PreFilterSize" ->
      stored ps' key = Some (if Z.even x then x + 1 else x))
  /\ (key = "Num Disparities" ->
      stored ps' key = Some (Z.max 16 (16 * (x / 16)))).
Proof.
  intros Hr Hset. pose proof (bm_reachable_validated _ Hr) as Hv.
  split; [|split].
  - apply bm_validated_invariant. eapply set_parameter_validated; eassumption.
  - intros Hkey. destruct Hv as ((p1 & H1 & V1 & _) & (p2 & H2 & V2 & _) & _).
    unfold set_parameter in Hset.
    destruct Hkey as [-> | ->].
    + rewrite H1 in Hset. inversion Hset. unfold stored.
      rewrite lookup_insert_eq. simpl. rewrite V1. f_equal. apply odd_only_even.
    + rewrite H2 in Hset. inversion Hset. unfold stored.
      rewrite lookup_insert_eq. simpl. rewrite V2. f_equal. apply odd_only_even.
  - intros ->. destruct Hv as (_ & _ & (p3 & H3 & V3 & _)).
    unfold set_parameter in Hset. rewrite H3 in Hset. inversion Hset.
    unfold stored. rewrite lookup_insert_eq. simpl. rewrite V3. f_equal.
    apply multiple_of_16_spec.
Qed.

Lemma set_value_keeps_bm_valid_witness :
  bm_reachable (parameters StereoBMMethod_init)
  /\ set_parameter "Block Size" 12 (parameters StereoBMMethod_init)
     = Ok bm_after_block_size_12
  /\ bm_invariant bm_after_block_size_12
  /\ stored bm_after_block_size_12 "Block Size" = Some 13.
Proof.
  split; [exact bm_reach_init|]. split; [reflexivity|].
  destruct (set_value_keeps_bm_valid (parameters StereoBMMethod_init)
              "Block Size" 12 bm_after_block_size_12 bm_reach_init eq_refl)
    as (Hi & Hb & _).
  split; [exact Hi | exact (Hb (or_introl eq_refl))].
Defined.

End ValidatorProofs.

Section MatcherProofs.
Import Methods MethodsSpec.

Variable cvtColor_BGR2GRAY : image -> gray_image.
Variable cv_compute : list CvCall -> gray_image -> gray_image -> ndarray Z.

Lemma int_value_ok {S} (ps : ParamDict) key p (s : S) :
  ps !! key = Some (PInt p) -> int_value ps key s = (Ok (value p), s).
Proof. intros H. unfold int_value, param, ebind. rewrite H. reflexivity. Qed.

Lemma enum_index_ok {S} (ps : ParamDict) key e (s : S) :
  ps !! key = Some (PEnum e) -> enum_index ps key s = (Ok (index e), s).
Proof. intros H. unfold enum_index, param, ebind. rewrite H. reflexivity. Qed.

(** One setter line: look the value up, hand it to the matcher. *)
Lemma set_knob_ok (ps : ParamDict) key p k
    (rest : Eff (list CvCall) (ndarray Q * Q)) log :
  ps !! key = Some (PInt p) ->
  ebind (int_value ps key) (fun v => ebind (call (CvSet k v)) (fun _ => rest)) log
  = rest (log ++ [CvSet k (value p)]).
Proof.
  intros H. unfold ebind at 1. rewrite (int_value_ok _ _ _ _ H). reflexivity.
Qed.

Lemma make_odd_odd v :
  Z.odd (if v mod 2 =? 0 then v + 1 else v) = true
  /\ (if v mod 2 =? 0 then v + 1 else v) = (if Z.even v then v + 1 else v).
Proof.
  rewrite <- Zeven_mod. split; [|reflexivity].
  destruct (Z.even v) eqn:E.
  - rewrite Z.odd_add, <- Z.negb_even, E. reflexivity.
  - rewrite <- Z.negb_even, E. reflexivity.
Qed.

(** Dividing a 16-bit fixed-point disparity by 16 loses nothing, in the
    rationals and in [np.float32] alike. *)
Lemma div16_times_16 v : (inject_Z v / 16 * 16 == inject_Z v)%Q.
Proof. field. Qed.

Lemma div16_binary32_exact v :
  -32768 <= v <= 32767 -> binary32_exact (inject_Z v / 16)%Q.
Proof.
  intros Hv. exists v, (-4). split; [lia|]. split; [lia|].
  simpl. field.
Qed.

Lemma div16_shape raw : shape2 (div16 raw) = shape2 raw.
Proof. reflexivity. Qed.

Ltac int_keys_inv H :=
  unfold int_keys, bm_keys, sgbm_int_keys in H;
  repeat match type of H with
         | Forall _ (_ :: _) => apply Forall_cons in H as [[? ?] H]
         end; clear H.

Ltac elem_cases H :=
  repeat (apply elem_of_cons in H as [H|H]; [try discriminate H|]);
  try (apply elem_of_nil in H; contradiction).

(** C1.  [StereoBMMethod.compute_disparity] and
    [StereoSGBMMethod.compute_disparity] return, as disparity map, the raw
    integer output of the matcher they configured, each element divided by
    the sub-pixel scale factor 16. *)
Theorem disparity_is_raw_over_16 ps_bm ps_sgbm left_image right_image start stop :
  int_keys bm_keys ps_bm ->
  sgbm_ready ps_sgbm ->
  let gray_left := cvtColor_BGR2GRAY left_image in
  let gray_right := cvtColor_BGR2GRAY right_image in
  (exists config,
     StereoBM_compute_disparity cvtColor_BGR2GRAY cv_compute ps_bm
       left_image right_image start stop []
     = (Ok (ndarray_map (fun v => inject_Z v / 16)%Q
              (cv_compute config gray_left gray_right), (stop - start)%Q),
        config ++ [CvCompute gray_left gray_right]))
  /\ (exists config,
     StereoSGBM_compute_disparity cvtColor_BGR2GRAY cv_compute ps_sgbm
       left_image right_image start stop []
     = (Ok (ndarray_map (fun v => inject_Z v / 16)%Q
              (cv_compute config gray_left gray_right), (stop - start)%Q),
        config ++ [CvCompute gray_left gray_right])).
Proof.
  intros Hbm [Hsg [e He]] gl gr. split.
  - int_keys_inv Hbm. eexists.
    unfold StereoBM_compute_disparity.
    unfold ebind at 1. erewrite int_value_ok by eassumption.
    unfold ebind at 1. erewrite int_value_ok by eassumption.
    unfold ebind at 1. unfold call at 1, emodify at 1.
    repeat (erewrite set_knob_ok by eassumption).
    reflexivity.
  - int_keys_inv Hsg. eexists.
    unfold StereoSGBM_compute_disparity.
    unfold ebind at 1. erewrite int_value_ok by eassumption.
    unfold ebind at 1. erewrite int_value_ok by eassumption.
    unfold ebind at 1. unfold call at 1, emodify at 1.
    unfold ebind at 1. erewrite enum_index_ok by eassumption.
    unfold ebind at 1. unfold call at 1, emodify at 1.
    repeat (erewrite set_knob_ok by eassumption).
    reflexivity.
Qed.

(** C4.  [StereoBMMethod.compute_disparity] makes exactly these calls on the
    matcher, in this order: the factory call with the number of disparities
    and the block size, seven setters (texture threshold, uniqueness ratio,
    speckle window size, speckle range, left-right-check max difference,
    pre-filter cap, pre-filter size), then [compute].  Each of the nine
    numbers is the value stored in the parameter dictionary, the block size
    being first made odd. *)
Theorem bm_sets_nine_knobs ps left_image right_image start stop
    (nd bs tt ur sw sr d12 pfc pfs : IntParameter) :
  ps !! "Num Disparities" = Some (PInt nd) ->
  ps !! "Block Size" = Some (PInt bs) ->
  ps !! "TextureThreshold" = Some (PInt tt) ->
  ps !! "Uniqueness Ratio" = Some (PInt ur) ->
  ps !! "SpeckleWindowSize" = Some (PInt sw) ->
  ps !! "SpeckleRange" = Some (PInt sr) ->
  ps !! "Disp12MaxDiff" = Some (PInt d12) ->
  ps !! "PreFilterCap" = Some (PInt pfc) ->
  ps !! "PreFilterSize" = Some (PInt pfs) ->
  let config :=
    [StereoBM_create (value nd)
       (if Z.even (value bs) then value bs + 1 else value bs);
     CvSet TextureThreshold (value tt);
     CvSet UniquenessRatio (value ur);
     CvSet SpeckleWindowSize (value sw);
     CvSet SpeckleRange (value sr);
     CvSet Disp12MaxDiff (value d12);
     CvSet PreFilterCap (value pfc);
     CvSet PreFilterSize (value pfs)] in
  let gray_left := cvtColor_BGR2GRAY left_image in
  let gray_right := cvtColor_BGR2GRAY right_image in
  StereoBM_compute_disparity cvtColor_BGR2GRAY cv_compute ps
    left_image right_image start stop []
  = (Ok (div16 (cv_compute config gray_left gray_right), (stop - start)%Q),
     config ++ [CvCompute gray_left gray_right]).
Proof.
  intros Hnd Hbs Htt Hur Hsw Hsr Hd12 Hpfc Hpfs config gl gr.
  unfold StereoBM_compute_disparity.
  unfold ebind at 1. rewrite (int_value_ok _ _ _ _ Hbs).
  unfold ebind at 1. rewrite (int_value_ok _ _ _ _ Hnd).
  unfold ebind at 1. unfold call at 1, emodify at 1.
  rewrite (set_knob_ok _ _ _ _ _ _ Htt), (set_knob_ok _ _ _ _ _ _ Hur),
    (set_knob_ok _ _ _ _ _ _ Hsw), (set_knob_ok _ _ _ _ _ _ Hsr),
    (set_knob_ok _ _ _ _ _ _ Hd12), (set_knob_ok _ _ _ _ _ _ Hpfc),
    (set_knob_ok _ _ _ _ _ _ Hpfs).
  rewrite (proj2 (make_odd_odd (value bs))). reflexivity.
Qed.

(** C10.  Whatever the parameter dictionary holds, every factory call that
    [StereoBMMethod.compute_disparity] makes carries an odd block size: the
    stored 'Block Size', plus one when that is even. *)
Theorem bm_block_size_never_even ps left_image right_image start stop nd bs :
  StereoBM_create nd bs ∈
    (StereoBM_compute_disparity cvtColor_BGR2GRAY cv_compute ps
       left_image right_image start stop []).2 ->
  Z.odd bs = true
  /\ exists p, ps !! "Block Size" = Some (PInt p)
               /\ bs = if Z.even (value p) then value p + 1 else value p.
Proof.
  unfold StereoBM_compute_disparity, int_value, param, ebind, call, emodify,
    eret, eraise, eget.
  intros H.
  destruct (ps !! "Block Size") as [[p|e]|] eqn:Hbs; simpl in H;
    [| elem_cases H | elem_cases H].
  assert (Hgoal : forall nd',
    StereoBM_create nd bs
    = StereoBM_create nd' (if value p mod 2 =? 0 then value p + 1 else value p) ->
    Z.odd bs = true
    /\ exists p0, Some (PInt p) = Some (PInt p0)
                  /\ bs = if Z.even (value p0) then value p0 + 1 else value p0).
  { intros nd' Heq. inversion Heq; subst.
    destruct (make_odd_odd (value p)) as [Ho He].
    split; [exact Ho|]. exists p. split; [reflexivity|exact He]. }
  repeat match type of H with
         | context [ps !! ?k] =>
             destruct (ps !! k) as [[?|?]|]; simpl in H
         end;
    elem_cases H; eapply Hgoal; exact H.
Qed.

End MatcherProofs.

Section MatcherWitnesses.
Import Methods MethodsSpec.

Lemma bm_defaults_ready : int_keys bm_keys (parameters StereoBMMethod_init).
Proof. repeat constructor; eexists; reflexivity. Qed.

Lemma sgbm_defaults_ready : sgbm_ready (parameters StereoSGBMMethod_init).
Proof.
  split; [repeat constructor; eexists; reflexivity | eexists; reflexivity].
Qed.

Lemma disparity_is_raw_over_16_witness :
  int_keys bm_keys (parameters StereoBMMethod_init)
  /\ sgbm_ready (parameters StereoSGBMMethod_init)
  /\ (exists config,
        (StereoBM_compute_disparity mean_gray left_times_16
           (parameters StereoBMMethod_init) two_pixels two_pixels 0 1 []).1
        = Ok (ndarray_map (fun v => inject_Z v / 16)%Q
                (left_times_16 config (mean_gray two_pixels) (mean_gray two_pixels)),
              (1 - 0)%Q))
  /\ (exists config,
        (StereoSGBM_compute_disparity mean_gray left_times_16
           (parameters StereoSGBMMethod_init) two_pixels two_pixels 0 1 []).1
        = Ok (ndarray_map (fun v => inject_Z v / 16)%Q
                (left_times_16 config (mean_gray two_pixels) (mean_gray two_pixels)),
              (1 - 0)%Q)).
Proof.
  split; [exact bm_defaults_ready|]. split; [exact sgbm_defaults_ready|].
  destruct (disparity_is_raw_over_16 mean_gray left_times_16
              (parameters StereoBMMethod_init) (parameters StereoSGBMMethod_init)
              two_pixels two_pixels 0 1 bm_defaults_ready sgbm_defaults_ready)
    as [[c1 H1] [c2 H2]].
  split; [exists c1; rewrite H1 | exists c2; rewrite H2]; reflexivity.
Defined.

Lemma bm_sets_nine_knobs_witness :
  StereoBM_compute_disparity mean_gray left_times_16
    (parameters StereoBMMethod_init) two_pixels two_pixels 0 1 []
  = (Ok (div16 (mk_ndarray 1 2 [320; 800]), (1 - 0)%Q),
     [StereoBM_create 64 9; CvSet TextureThreshold 10; CvSet UniquenessRatio 15;
      CvSet SpeckleWindowSize 100; CvSet SpeckleRange 32; CvSet Disp12MaxDiff 1;
      CvSet PreFilterCap 31; CvSet PreFilterSize 9;
      CvCompute (mk_ndarray 1 2 [20; 50]) (mk_ndarray 1 2 [20; 50])]).
Proof.
  exact (bm_sets_nine_knobs mean_gray left_times_16
           (parameters StereoBMMethod_init) two_pixels two_pixels 0 1
           _ _ _ _ _ _ _ _ _
           eq_refl eq_refl eq_refl eq_refl eq_refl eq_refl eq_refl eq_refl eq_refl).
Defined.

Lemma bm_block_size_never_even_witness :
  stored (bm_with_block_size 10) "Block Size" = Some 10
  /\ StereoBM_create 64 11 ∈
       (StereoBM_compute_disparity mean_gray left_times_16
          (bm_with_block_size 10) two_pixels two_pixels 0 1 []).2
  /\ Z.odd 11 = true.
Proof.
  assert (Hin : StereoBM_create 64 11 ∈
       (StereoBM_compute_disparity mean_gray left_times_16
          (bm_with_block_size 10) two_pixels two_pixels 0 1 []).2)
    by (vm_compute; left).
  split; [reflexivity|]. split; [exact Hin|].
  exact (proj1 (bm_block_size_never_even mean_gray left_times_16
                  (bm_with_block_size 10) two_pixels two_pixels 0 1 64 11 Hin)).
Defined.

End MatcherWitnesses.

(** * Theorems: raft_stereo.py *)

Section RaftProofs.
Import Methods Raft RaftSpec.

Context {Blob Net Tensor : Type}.
Variable torch_jit_load : Blob -> result Net.
Variable cvtColor_BGR2RGB : image -> image.
Variable cv_resize_image : image -> Z * Z -> image.
Variable cv_resize : ndarray Q -> nat * nat -> ndarray Q.
Variable to_tensor : image -> Tensor.
Variable forward : Net -> Device -> Tensor -> Tensor -> ndarray Q.

Lemma str_value_selected {S} ps key (s : S) :
  str_value ps key s = (selected ps key, s).
Proof.
  unfold str_value, selected, param, ebind.
  destruct (ps !! key) as [[?|?]|]; reflexivity.
Qed.

(** A cached file is loaded without any download. *)
Lemma load_model_cached file_name blob n (s : @State Blob Net) :
  models s !! file_name = Some blob ->
  torch_jit_load blob = Ok n ->
  _load_model torch_jit_load file_name s
  = (Ok tt, mk_State (parameters s) (Some n) (Some file_name)
              (target_size s) (models_dir s) (models s) (remote s)
              (events s ++ [EvJitLoad file_name])).
Proof.
  intros Hm Hl. unfold _load_model, ebind, eget.
  rewrite bool_decide_eq_true_2 by (rewrite Hm; eauto).
  unfold eret. rewrite Hm. simpl. rewrite Hl. reflexivity.
Qed.

(** An absent file with a listed address is downloaded, then loaded. *)
Lemma load_model_downloads file_name url blob n (s : @State Blob Net) :
  models s !! file_name = None ->
  urls !! file_name = Some url ->
  remote s !! url = Some blob ->
  torch_jit_load blob = Ok n ->
  _load_model torch_jit_load file_name s
  = (Ok tt, mk_State (parameters s) (Some n) (Some file_name)
              (target_size s) (models_dir s)
              (<[file_name := blob]> (models s)) (remote s)
              (events s ++ [EvDownload url file_name; EvJitLoad file_name])).
Proof.
  intros Hm Hu Hr Hl. unfold _load_model, ebind, eget.
  rewrite bool_decide_eq_false_2 by (rewrite Hm; intros [? ?]; discriminate).
  rewrite Hu. unfold download_model, ebind, eget, emit, emodify.
  cbn [remote models]. rewrite Hr. cbn [set_models emodify models].
  rewrite lookup_insert_eq. simpl. rewrite Hl. simpl.
  rewrite <- app_assoc. reflexivity.
Qed.

(** An absent file without a listed address: [urls[model_path.name]] raises
    before anything is fetched. *)
Lemma load_model_unlisted file_name (s : @State Blob Net) :
  models s !! file_name = None ->
  urls !! file_name = None ->
  _load_model torch_jit_load file_name s = (Raise (KeyError file_name), s).
Proof.
  intros Hm Hu. unfold _load_model, ebind, eget.
  rewrite bool_decide_eq_false_2 by (rewrite Hm; intros [? ?]; discriminate).
  rewrite Hu. reflexivity.
Qed.

Lemma load_model_available file_name blob n (s : @State Blob Net) :
  available s file_name = Some blob ->
  torch_jit_load blob = Ok n ->
  exists s', _load_model torch_jit_load file_name s = (Ok tt, s')
             /\ net s' = Some n /\ parameters s' = parameters s.
Proof.
  unfold available. intros Ha Hl.
  destruct (models s !! file_name) as [b|] eqn:Hm.
  - inversion Ha; subst b. eexists.
    split; [eapply load_model_cached; eassumption|]. split; reflexivity.
  - destruct (urls !! file_name) as [url|] eqn:Hu; [|discriminate].
    eexists. split; [eapply load_model_downloads; eassumption|].
    split; reflexivity.
Qed.

(** C2.  Once the selected network is loaded, [RaftStereo.compute_disparity]
    returns a disparity map with the height and width of the left input
    image: the network output as it is when it already has that shape, and
    otherwise the output resized to the input resolution, every value
    multiplied by the input width over the processed width. *)
Theorem raft_output_has_input_shape (s : @State Blob Net) input start stop
    shape c r cols rows variant blob n :
  (forall m w h, shape2 (cv_resize m (w, h)) = (h, w)) ->
  selected (parameters s) "Shape" = Ok shape ->
  split_on "x" shape = [c; r] ->
  py_int c = Ok cols ->
  py_int r = Ok rows ->
  cols <> 0 ->
  selected (parameters s) "Model" = Ok variant ->
  available s (model_file_name variant rows cols) = Some blob ->
  torch_jit_load blob = Ok n ->
  let left := left_image input in
  let pre :=
    _preprocess_input cvtColor_BGR2RGB cv_resize_image to_tensor (cols, rows) in
  let device := if contains "cuda" variant then cuda else cpu in
  let raw :=
    _process_output (forward n device (pre left) (pre (right_image input))) in
  let x_scale := (inject_Z (Z.of_nat (width left)) / inject_Z cols)%Q in
  exists out s',
    compute_disparity torch_jit_load cvtColor_BGR2RGB cv_resize_image cv_resize
      to_tensor forward input start stop s = (Ok out, s')
    /\ shape2 (disparity_pixels out) = shape2 left
    /\ disparity_pixels out
       = if decide (shape2 raw = shape2 left) then raw
         else ndarray_map (fun v => v * x_scale)%Q
                (cv_resize raw (width left, height left)).
Proof.
  intros Hresize Hshape Hsplit Hc Hr Hcols Hmodel Hfile Hload
    left pre device raw x_scale.
  unfold compute_disparity, _compute_disparity.
  unfold ebind at 1. unfold ebind at 1. unfold eget at 1.
  unfold ebind at 1.
  set (s1 := (if models_dir s then eret tt else _) s).
  assert (Hs1 : exists s1', s1 = (Ok tt, s1') /\ parameters s1' = parameters s
                /\ available s1' (model_file_name variant rows cols) = Some blob).
  { subst s1. destruct (models_dir s) eqn:Hd.
    - exists s. auto.
    - eexists. split; [reflexivity|]. split; [reflexivity|exact Hfile]. }
  destruct Hs1 as (s1' & -> & Hp1 & Ha1).
  unfold ebind at 1. rewrite str_value_selected, Hshape.
  unfold ebind at 1. rewrite Hsplit. unfold eret at 1.
  unfold ebind at 1. unfold elift at 1. cbn [fst snd]. rewrite Hc.
  unfold ebind at 1. unfold elift at 1. rewrite Hr.
  unfold ebind at 1. unfold set_target_size at 1, emodify at 1.
  unfold ebind at 1. rewrite str_value_selected, Hmodel.
  unfold ebind at 1.
  match goal with
  | |- context [_load_model _ _ ?st] => set (s2 := st)
  end.
  destruct (load_model_available (model_file_name variant rows cols) blob n s2)
    as (s3 & Hl3 & Hn3 & Hp3); [exact Ha1 | exact Hload |].
  rewrite Hl3.
  unfold ebind at 1. unfold eget at 1.
  unfold ebind at 1. rewrite Hn3. unfold eret at 1.
  unfold ebind at 1. unfold emit at 1, emodify at 1.
  fold pre. fold left. fold device. fold raw.
  unfold ebind at 1.
  destruct (decide (shape2 raw = shape2 left)) as [Heq|Hne].
  - rewrite bool_decide_eq_false_2 by (intros H; apply H; exact Heq).
    unfold eret at 1. unfold ebind, emit, emodify, eret.
    eexists _, _. split; [reflexivity|]. split; [exact Heq|reflexivity].
  - rewrite bool_decide_eq_true_2 by exact Hne.
    destruct (Z.eqb_spec cols 0) as [?|_]; [contradiction|].
    unfold eret at 1. unfold ebind, emit, emodify, eret.
    eexists _, _. split; [reflexivity|]. split; [|reflexivity].
    cbn [disparity_pixels]. unfold shape2 at 1. cbn [ndarray_map height width].
    fold (shape2 (cv_resize raw (width left, height left))).
    rewrite Hresize. reflexivity.
Qed.

(** C3, at the model 'middlebury-cpu', which the method offers as entry 1 of
    'Model' and for which [urls] lists no address: with an empty models
    directory, [compute_disparity] raises [KeyError] out of [_load_model];
    nothing is downloaded and the directory stays empty. *)
Theorem middlebury_cpu_is_not_downloaded
    (served : gmap string Blob) input start stop :
  let ps := set_parameter_index "Model" 1 (reset_defaults ∅) in
  let s := mk_State ps None None None true ∅ served [] in
  let file_name := "raft-stereo-middlebury-cpu-480x640.scripted.pt" in
  selected ps "Model" = Ok "middlebury-cpu"
  /\ urls !! file_name = None
  /\ exists s',
       compute_disparity torch_jit_load cvtColor_BGR2RGB cv_resize_image
         cv_resize to_tensor forward input start stop s
       = (Raise (KeyError file_name), s')
       /\ events s' = []
       /\ models s' = ∅.
Proof.
  intros ps s file_name.
  split; [reflexivity|]. split; [reflexivity|].
  eexists. split; [vm_compute; reflexivity|]. split; reflexivity.
Qed.

End RaftProofs.

Section RaftWitnesses.
Import Methods Raft RaftSpec.

Lemma raft_output_has_input_shape_witness :
  exists out s',
    compute_disparity load_any bgr_to_rgb keep_size nearest_resize as_tensor
      one_pixel_net (mk_InputPair gray_2x3 gray_2x3) 0 1
      (fresh (reset_defaults ∅) ∅ serves_default) = (Ok out, s')
    /\ shape2 (disparity_pixels out) = (2, 3)%nat.
Proof.
  destruct (raft_output_has_input_shape load_any bgr_to_rgb keep_size
              nearest_resize as_tensor one_pixel_net
              (fresh (reset_defaults ∅) ∅ serves_default)
              (mk_InputPair gray_2x3 gray_2x3) 0 1
              "640x480" "640" "480" 640 480 "fast-cpu" 7 7)
    as (out & s' & Hrun & Hshape & _);
    [intros; reflexivity | vm_compute; reflexivity | vm_compute; reflexivity
    | vm_compute; reflexivity | vm_compute; reflexivity | discriminate
    | vm_compute; reflexivity | vm_compute; reflexivity
    | vm_compute; reflexivity |].
  exists out, s'. split; [exact Hrun | exact Hshape].
Defined.

End RaftWitnesses.

(** * Theorems: main.py *)

Section FileListProofs.
Import Main MainSpec.

Variable from_json : string -> result Calibration.
Variable fs : FileSystem.

Lemma py_subscript_lookup {A} (l : list A) (i : Z) x :
  0 <= i -> l !! Z.to_nat i = Some x -> Methods.py_subscript l i = Ok x.
Proof.
  intros Hi Hx. unfold Methods.py_subscript.
  pose proof (lookup_lt_Some _ _ _ Hx) as Hlt.
  destruct (Z.leb_spec 0 i); [|lia].
  destruct (Z.leb_spec 0 i); [|lia].
  destruct (Z.ltb_spec i (Z.of_nat (length l))); [|lia].
  simpl. rewrite Hx. reflexivity.
Qed.

Lemma wrapped_index_bounds s :
  0 <= index (self s) ->
  0 < Z.of_nat (length (left_images_path (self s))) ->
  0 <= wrapped_index s < Z.of_nat (length (left_images_path (self s))).
Proof.
  intros H0 HN. unfold wrapped_index.
  destruct (Z.leb_spec (Z.of_nat (length (left_images_path (self s)))) (index (self s))); lia.
Qed.











(** C5, for a left image that can be read.  With no calibration path from
    the user and no stereodemo_calibration.json next to the left image,
    [get_next_pair] returns: it prints the warning and the pair carries the
    default calibration, with the size of the left image, both focal lengths
    0.8 times its height, the principal point at its centre and baseline
    0.075. *)
Theorem default_calibration_fallback s lp rp img :
  user_provided_calibration_path (self s) = None ->
  0 <= index (self s) ->
  left_images_path (self s) !! Z.to_nat (wrapped_index s) = Some lp ->
  right_images_path (self s) !! Z.to_nat (wrapped_index s) = Some rp ->
  path_exists fs (sibling_calibration lp) = false ->
  load_image fs lp = Some img ->
  exists pair s',
    get_next_pair from_json fs s = (Ok pair, s')
    /\ stdout s' = stdout s ++ [missing_calibration_warning (sibling_calibration lp)]
    /\ left_image pair = Some img
    /\ calibration pair
       = mk_Calibration (width img) (height img)
           (inject_Z (Z.of_nat (height img)) * (8 # 10))%Q
           (inject_Z (Z.of_nat (height img)) * (8 # 10))%Q
           (inject_Z (Z.of_nat (width img)) / 2)%Q
           (inject_Z (Z.of_nat (height img)) / 2)%Q
           (75 # 1000)%Q.
Proof.
  intros Hu H0 Hl Hr Hex Himg.
  assert (Hw : 0 <= wrapped_index s).
  { unfold wrapped_index. destruct (_ <=? _); lia. }
  unfold get_next_pair, ebind, eget, elift.
  assert (Hstep : exists s1,
    (if Z.of_nat (length (left_images_path (self s))) <=? index (self s)
     then set_index 0 else eret tt) s = (Ok tt, s1)
    /\ left_images_path (self s1) = left_images_path (self s)
    /\ right_images_path (self s1) = right_images_path (self s)
    /\ user_provided_calibration_path (self s1)
       = user_provided_calibration_path (self s)
    /\ index (self s1) = wrapped_index s /\ stdout s1 = stdout s).
  { unfold wrapped_index. destruct (_ <=? _); eexists; (split; [reflexivity|]); auto. }
  destruct Hstep as (s1 & -> & Hl1 & Hr1 & Hu1 & Hi1 & Ho1).
  cbv beta iota.
  rewrite Hl1, Hr1, Hu1, Hi1, (py_subscript_lookup _ _ _ Hw Hl),
    (py_subscript_lookup _ _ _ Hw Hr), Hu.
  fold (sibling_calibration lp). rewrite Hex, Himg.
  unfold print, set_index, emodify, eret. cbn [negb]. cbv beta iota.
  eexists _, _. split; [reflexivity|].
  cbn [stdout left_image calibration]. rewrite Ho1. auto.
Qed.

End FileListProofs.

Section MainProofs.
Import Main.

Variable CREStereo_name : string.
Variable StereoFromOakInputSource_name : string.

Lemma frame_loop_continue start_time end_time rest log :
  frame_loop (Continue start_time end_time :: rest) log
  = frame_loop rest
      (log ++ [EvUpdateOnce true; EvWaitKey 1]
           ++ (if Qlt_le_dec 0 (frame_period - (end_time - start_time))
               then [EvSleep (frame_period - (end_time - start_time))]
               else [])).
Proof.
  cbn [frame_loop]. unfold ebind, emit, emodify, eret. cbv beta iota.
  destruct (Qlt_le_dec 0 (frame_period - (end_time - start_time))).
  - rewrite <- !app_assoc. reflexivity.
  - rewrite <- !app_assoc. reflexivity.
Qed.

Lemma frame_loop_sleeps_positive passes : forall log d,
  EvSleep d ∈ (frame_loop passes log).2 -> EvSleep d ∈ log \/ (0 < d)%Q.
Proof.
  induction passes as [|[st et|st] rest IH]; intros log d Hin.
  - left. exact Hin.
  - rewrite frame_loop_continue in Hin. apply IH in Hin as [Hin|Hpos]; [|right; exact Hpos].
    apply elem_of_app in Hin as [Hin|Hin]; [left; exact Hin|].
    apply elem_of_app in Hin as [Hin|Hin].
    + apply elem_of_cons in Hin as [Hin|Hin]; [discriminate|].
      apply elem_of_cons in Hin as [Hin|Hin]; [discriminate|].
      apply elem_of_nil in Hin. contradiction.
    + destruct (Qlt_le_dec 0 (frame_period - (et - st))) as [Hlt|_].
      * apply list_elem_of_singleton in Hin. inversion Hin; subst. right. exact Hlt.
      * apply elem_of_nil in Hin. contradiction.
  - cbn in Hin. apply elem_of_app in Hin as [Hin|Hin]; [left; exact Hin|].
    apply list_elem_of_singleton in Hin. discriminate.
Qed.

(** C7.  A pass of the frame loop in which [update_once] succeeded goes on
    with [waitKey(1)], then sleeps for 1/30 second minus the elapsed time
    when that is positive, and does not sleep at all when the pass already
    took 1/30 second or more; no run of the loop ever sleeps a duration that
    is not positive. *)
Theorem frame_loop_pacing start_time end_time rest log :
  let elapsed := (end_time - start_time)%Q in
  let time_to_sleep := (1 / 30 - elapsed)%Q in
  ((0 < time_to_sleep)%Q ->
     frame_loop (Continue start_time end_time :: rest) log
     = frame_loop rest
         (log ++ [EvUpdateOnce true; EvWaitKey 1; EvSleep time_to_sleep]))
  /\ ((1 / 30 <= elapsed)%Q ->
     frame_loop (Continue start_time end_time :: rest) log
     = frame_loop rest (log ++ [EvUpdateOnce true; EvWaitKey 1]))
  /\ (forall passes d, EvSleep d ∈ (frame_loop passes []).2 -> (0 < d)%Q).
Proof.
  intros elapsed time_to_sleep. split; [|split].
  - intros Hpos. rewrite frame_loop_continue.
    change (frame_period - (end_time - start_time))%Q with time_to_sleep.
    destruct (Qlt_le_dec 0 time_to_sleep) as [_|Hle]; [reflexivity|].
    exfalso. apply (Qlt_irrefl 0). eapply Qlt_le_trans; eassumption.
  - intros Hlate. rewrite frame_loop_continue.
    change (frame_period - (end_time - start_time))%Q with time_to_sleep.
    destruct (Qlt_le_dec 0 time_to_sleep) as [Hlt|_].
    + exfalso. subst time_to_sleep. lra.
    + rewrite app_nil_r. reflexivity.
  - intros passes d Hin. apply frame_loop_sleeps_positive in Hin as [Hin|Hpos].
    + apply elem_of_nil in Hin. contradiction.
    + exact Hpos.
Qed.

(** C6.  With neither [--images] nor [--oak], [main] prints the message
    asking for one of them and exits with status 1; this is all it does: no
    visualizer is constructed and no pass of the frame loop runs. *)
Theorem main_without_source_exits args passes :
  images args = None ->
  oak args = false ->
  main CREStereo_name StereoFromOakInputSource_name args passes []
  = (Raise (SystemExit 1), [EvPrint "You need to specify --oak or --images"]).
Proof.
  intros Hi Ho. unfold main, ebind. rewrite Hi, Ho. reflexivity.
Qed.

End MainProofs.

Section MainWitnesses.
Import Main MainSpec.

(** C5 as stated fails: the left image cannot be read, nothing else is
    amiss, and the fallback itself raises on [left_image.shape]. *)
Lemma unreadable_left_image_raises :
  FileListSource_init one_pair None = Ok (self one_pair_source)
  /\ user_provided_calibration_path (self one_pair_source) = None
  /\ path_exists ∅ (sibling_calibration ["left.png"]) = false
  /\ get_next_pair reject_json ∅ one_pair_source
     = (Raise (AttributeError "shape"),
        mk_SourceState (self one_pair_source)
          [missing_calibration_warning (sibling_calibration ["left.png"])]).
Proof.
  split; [reflexivity|]. split; [reflexivity|]. split; vm_compute; reflexivity.
Qed.

Lemma default_calibration_fallback_witness :
  exists pair s',
    get_next_pair reject_json both_images one_pair_source = (Ok pair, s')
    /\ stdout s'
       = ["Warning: no calibration file found stereodemo_calibration.json. Using default calibration, the point cloud won't be accurate."]
    /\ calibration pair
       = mk_Calibration 3 2 (inject_Z 2 * (8 # 10))%Q (inject_Z 2 * (8 # 10))%Q
           (inject_Z 3 / 2)%Q (inject_Z 2 / 2)%Q (75 # 1000)%Q.
Proof.
  destruct (default_calibration_fallback reject_json both_images one_pair_source
              ["left.png"] ["right.png"] gray_2x3)
    as (pair & s' & Hrun & Hout & _ & Hcal);
    [reflexivity | vm_compute; discriminate | reflexivity | reflexivity
    | vm_compute; reflexivity | vm_compute; reflexivity |].
  exists pair, s'. split; [exact Hrun|]. split; [exact Hout | exact Hcal].
Defined.



Lemma frame_loop_pacing_witness :
  (0 < 1 / 30 - ((1 # 100) - 0))%Q
  /\ frame_loop [Continue 0 (1 # 100)] []
     = (Ok tt, [EvUpdateOnce true; EvWaitKey 1;
                EvSleep (1 / 30 - ((1 # 100) - 0))%Q]).
Proof.
  split; [reflexivity|].
  rewrite (proj1 (frame_loop_pacing 0 (1 # 100) [] []) eq_refl). reflexivity.
Defined.

Lemma main_without_source_exits_witness :
  main "CREStereo" "OAK-D" (mk_Args false None None) [Continue 0 1] []
  = (Raise (SystemExit 1), [EvPrint "You need to specify --oak or --images"]).
Proof.
  exact (main_without_source_exits "CREStereo" "OAK-D" (mk_Args false None None)
           [Continue 0 1] eq_refl eq_refl).
Defined.

End MainWitnesses.
